(** * Feature drift filter (binary classification, current data drift)

    Shallow embedding of
    [ui/src/container/models/Details/current/data-drift/binary-classification/use-get-filtered-features.js]
    and the properties the specification states about it.

    The hook reads two collaborators (the polled drift data and the form
    metadata) and returns the per-feature drift metrics that survive the
    type toggles and the feature-name allow-list.  JavaScript values that may
    be [undefined] are options; a parameter destructuring or a method call on
    [undefined] raises a [TypeError]; [console.debug] appends to the console.
    Both effects are threaded through a small monad. *)

From Stdlib Require Import String List Bool.
From stdpp Require Import base option list strings.

(** ** Data model *)

(** [DRIFT_TEST_ENUM] is imported from [@Src/constants]; the hook reads its
    two members [KS] and [CHI2] only. *)
Record DriftTestEnum := {
  KS : string;
  CHI2 : string
}.

(** [driftCalc: { type }] *)
Record DriftCalc := {
  type : string
}.

(** One element of [featureMetrics].  The object may come without a
    [driftCalc]; the callbacks destructure it. *)
Record DriftMetric := {
  featureName : string;
  driftCalc : option DriftCalc
}.

(** [data.drift] *)
Record Drift := {
  featureMetrics : option (list DriftMetric)
}.

(** [data], as returned by [useGetCurrentDriftQueryWithPolling] *)
Record DriftData := {
  drift : option Drift
}.

(** [form.__metadata], as returned by [useFormbitContext] *)
Record Metadata := {
  isNumericalSelected : bool;
  isCategoricalSelected : bool;
  selectedFeatures : option (list string)
}.

(** ** Effects: exceptions and the console *)

Inductive Exception := TypeError.

Inductive Completion (A : Type) :=
| Normal (a : A)
| Throw (e : Exception).
Arguments Normal {A} a.
Arguments Throw {A} e.

(** The three arguments of one [console.debug(type, isNumerical, isCategorical)] *)
Record DebugLine := {
  dbg_type : string;
  dbg_isNumerical : bool;
  dbg_isCategorical : bool
}.

Definition Console := list DebugLine.

Module JS.

Definition t (A : Type) : Type := Console -> Completion A * Console.

Definition ret {A} (a : A) : t A := fun c => (Normal a, c).

Definition throw {A} (e : Exception) : t A := fun c => (Throw e, c).

Definition bind {A B} (m : t A) (k : A -> t B) : t B :=
  fun c =>
    match m c with
    | (Normal a, c') => k a c'
    | (Throw e, c') => (Throw e, c')
    end.

Definition console_debug (ty : string) (n k : bool) : t unit :=
  fun c => (Normal tt, (c ++ [Build_DebugLine ty n k])%list).

(** The value a run completes with, and the console it leaves. *)
Definition completion {A} (r : Completion A * Console) : Completion A := fst r.
Definition console {A} (r : Completion A * Console) : Console := snd r.

End JS.

Declare Scope js_scope.
Delimit Scope js_scope with js.
Notation "x <- m ;; k" := (JS.bind m (fun x => k))
  (at level 100, m at next level, k at level 200, right associativity) : js_scope.
Notation "m ;; k" := (JS.bind m (fun _ => k))
  (at level 100, k at level 200, right associativity) : js_scope.

(** ** JavaScript primitives used by the hook *)

(** [!x], for an [x] that is an object or [undefined] *)
Definition not_ {A} (x : option A) : bool :=
  match x with
  | Some _ => false
  | None => true
  end.

(** [xs?.length > 0]: [undefined > 0] is [false] *)
Definition length_gt_0 {A} (xs : option (list A)) : bool :=
  match xs with
  | Some l => 0 <? length l
  | None => false
  end.

(** [xs.includes(x)] on an array of strings; on [undefined] the member access
    raises. *)
Definition includes (xs : option (list string)) (x : string) : JS.t bool :=
  match xs with
  | Some l => JS.ret (existsb (String.eqb x) l)
  | None => JS.throw TypeError
  end.

(** The parameter pattern [{ driftCalc: { type } }]: destructuring
    [undefined] raises. *)
Definition destructure_type (m : DriftMetric) : JS.t string :=
  match driftCalc m with
  | Some dc => JS.ret (type dc)
  | None => JS.throw TypeError
  end.

(** [Array.prototype.filter]: elements are visited in index order, the
    callback's effects happen in that order, and an exception of the callback
    ends the traversal. *)
Fixpoint Array_filter {A} (callback : A -> JS.t bool) (xs : list A) : JS.t (list A) :=
  match xs with
  | [] => JS.ret []
  | x :: rest =>
      (keep <- callback x;;
       kept <- Array_filter callback rest;;
       JS.ret (if keep then x :: kept else kept))%js
  end.

(** ** The hook *)

Section Hook.

Variable DRIFT_TEST_ENUM : DriftTestEnum.

(** Lines 20-26: the callback of the branch taken when a feature selection
    exists. *)
Definition selected_callback
    (isNumericalSelected isCategoricalSelected : bool)
    (selectedFeatures : option (list string))
    (metric : DriftMetric) : JS.t bool :=
  (type <- destructure_type metric;;
   isSelected <- includes selectedFeatures (featureName metric);;
   let isNumerical := isNumericalSelected && (type =? KS DRIFT_TEST_ENUM)%string in
   let isCategorical := isCategoricalSelected && (type =? CHI2 DRIFT_TEST_ENUM)%string in
   JS.ret (isSelected && (isNumerical || isCategorical)))%js.

(** Lines 27-34: the callback of the other branch, with its diagnostic. *)
Definition unselected_callback
    (isNumericalSelected isCategoricalSelected : bool)
    (metric : DriftMetric) : JS.t bool :=
  (type <- destructure_type metric;;
   let isNumerical := isNumericalSelected && (type =? KS DRIFT_TEST_ENUM)%string in
   let isCategorical := isCategoricalSelected && (type =? CHI2 DRIFT_TEST_ENUM)%string in
   JS.console_debug type isNumerical isCategorical;;
   JS.ret (isNumerical || isCategorical))%js.

(** [data?.drift?.featureMetrics ?? []] *)
Definition items_of (data : option DriftData) : list DriftMetric :=
  default [] ((data ≫= drift) ≫= featureMetrics).

(** The default export.  Its two inputs are what the two collaborator hooks
    return. *)
Definition useGetFilteredFeatures
    (data : option DriftData) (metadata : Metadata) : JS.t (list DriftMetric) :=
  let items := items_of data in
  let '(Build_Metadata isNumericalSelected isCategoricalSelected selectedFeatures) :=
    metadata in
  if not_ data then JS.ret []
  else if negb isNumericalSelected && negb isCategoricalSelected then JS.ret []
  else if length_gt_0 selectedFeatures
    then Array_filter
           (selected_callback isNumericalSelected isCategoricalSelected selectedFeatures)
           items
    else Array_filter
           (unselected_callback isNumericalSelected isCategoricalSelected)
           items.

End Hook.

(** ** The notions of the specification *)

Section Notions.

Variable DRIFT_TEST_ENUM : DriftTestEnum.

(** §3, DriftMetric: every metric carries a [driftCalc] with a [type]. *)
Definition has_driftCalc (metric : DriftMetric) : Prop :=
  is_Some (driftCalc metric).

(** The declared input domain: the dataset may be absent, its metrics may
    be absent or empty, and every metric it holds has a [driftCalc]. *)
Definition declared (data : option DriftData) : Prop :=
  Forall has_driftCalc (items_of data).

(** §4.1 step 3: eligibility of a metric under the two type toggles. *)
Definition numerically_eligible (metadata : Metadata) (metric : DriftMetric) : Prop :=
  isNumericalSelected metadata = true /\
  type <$> driftCalc metric = Some (KS DRIFT_TEST_ENUM).

Definition categorically_eligible (metadata : Metadata) (metric : DriftMetric) : Prop :=
  isCategoricalSelected metadata = true /\
  type <$> driftCalc metric = Some (CHI2 DRIFT_TEST_ENUM).

Definition passes_type_filter (metadata : Metadata) (metric : DriftMetric) : Prop :=
  numerically_eligible metadata metric \/ categorically_eligible metadata metric.

(** §4.1 steps 4 and 5: the allow-list restricts only when it is a
    non-empty sequence. *)
Definition passes_name_filter (metadata : Metadata) (metric : DriftMetric) : Prop :=
  match selectedFeatures metadata with
  | Some (name :: names) => featureName metric ∈ name :: names
  | Some [] | None => True
  end.

#[global] Instance passes_type_filter_dec metadata metric :
  Decision (passes_type_filter metadata metric).
Proof.
  unfold passes_type_filter, numerically_eligible, categorically_eligible.
  apply _.
Defined.

#[global] Instance passes_name_filter_dec metadata metric :
  Decision (passes_name_filter metadata metric).
Proof.
  unfold passes_name_filter.
  destruct (selectedFeatures metadata) as [[|name names]|]; apply _.
Defined.

(** What [useGetFilteredFeatures] completes with, whatever it logs. *)
Definition returns (data : option DriftData) (metadata : Metadata)
    (c : Console) (result : list DriftMetric) : Prop :=
  JS.completion (useGetFilteredFeatures DRIFT_TEST_ENUM data metadata c) = Normal result.

(** Lines 27-34 with the [console.debug] statement of line 31 deleted. *)
Definition unselected_callback_silent
    (isNumericalSelected isCategoricalSelected : bool)
    (metric : DriftMetric) : JS.t bool :=
  (type <- destructure_type metric;;
   let isNumerical := isNumericalSelected && (type =? KS DRIFT_TEST_ENUM)%string in
   let isCategorical := isCategoricalSelected && (type =? CHI2 DRIFT_TEST_ENUM)%string in
   JS.ret (isNumerical || isCategorical))%js.

(** The line [console.debug] prints for one metric. *)
Definition debug_line (metadata : Metadata) (metric : DriftMetric) : Console :=
  match driftCalc metric with
  | Some dc =>
      [ {| dbg_type := type dc;
           dbg_isNumerical :=
             isNumericalSelected metadata && (type dc =? KS DRIFT_TEST_ENUM)%string;
           dbg_isCategorical :=
             isCategoricalSelected metadata && (type dc =? CHI2 DRIFT_TEST_ENUM)%string |} ]
  | None => []
  end.

End Notions.

(** ** The scenarios of the specification (§8) *)

(** Modelled from the spec: the members of [DRIFT_TEST_ENUM], which lives in
    [@Src/constants]; §8 names the numerical test kind ["KS"] and the
    categorical one ["CHI2"]. *)
Definition spec_DRIFT_TEST_ENUM : DriftTestEnum :=
  {| KS := "KS"; CHI2 := "CHI2" |}.

Definition age : DriftMetric :=
  {| featureName := "age"; driftCalc := Some {| type := "KS" |} |}.

Definition city : DriftMetric :=
  {| featureName := "city"; driftCalc := Some {| type := "CHI2" |} |}.

(** A metric produced by a test kind the filter does not know. *)
Definition income : DriftMetric :=
  {| featureName := "income"; driftCalc := Some {| type := "PSI" |} |}.

(** A metric object without [driftCalc], outside the declared domain. *)
Definition broken : DriftMetric :=
  {| featureName := "broken"; driftCalc := None |}.

Definition dataset (metrics : list DriftMetric) : option DriftData :=
  Some {| drift := Some {| featureMetrics := Some metrics |} |}.

Definition scenario_data : option DriftData := dataset [age; city].

Definition scenario1_metadata : Metadata :=
  {| isNumericalSelected := true; isCategoricalSelected := false;
     selectedFeatures := Some [] |}.

Definition scenario2_metadata : Metadata :=
  {| isNumericalSelected := false; isCategoricalSelected := false;
     selectedFeatures := Some ["age"%string] |}.

Definition scenario3_metadata : Metadata :=
  {| isNumericalSelected := true; isCategoricalSelected := true;
     selectedFeatures := Some ["city"%string] |}.

Definition scenario5_metadata : Metadata :=
  {| isNumericalSelected := true; isCategoricalSelected := true;
     selectedFeatures := Some [] |}.

(** ** Generic facts on completions and on [Array_filter] *)

Section ArrayFilter.

Context {A : Type}.

(** A callback that always completes normally with the verdict of a
    decidable predicate, and logs [log x] on the way, makes [Array_filter]
    the list filter of that predicate; the logs are appended in index
    order. *)
Lemma Array_filter_filter (P : A -> Prop) `{!forall x, Decision (P x)}
    (log : A -> Console) (callback : A -> JS.t bool) (xs : list A) :
  Forall (fun x => forall c, callback x c = (Normal (bool_decide (P x)), c ++ log x)) xs ->
  forall c, Array_filter callback xs c = (Normal (filter P xs), c ++ (xs ≫= log)).
Proof.
  induction 1 as [|x xs Hx _ IH]; intros c; simpl.
  - unfold JS.ret. by rewrite app_nil_r.
  - unfold JS.bind. rewrite Hx, IH. unfold JS.ret.
    rewrite filter_cons, <- app_assoc.
    case_bool_decide.
    + by rewrite decide_True.
    + by rewrite decide_False.
Qed.

(** Two callbacks that complete alike on every element, whatever the
    console holds, make [Array_filter] complete alike. *)
Lemma Array_filter_completion (callback1 callback2 : A -> JS.t bool) (xs : list A) :
  (forall x c1 c2, JS.completion (callback1 x c1) = JS.completion (callback2 x c2)) ->
  forall c1 c2,
    JS.completion (Array_filter callback1 xs c1) =
    JS.completion (Array_filter callback2 xs c2).
Proof.
  unfold JS.completion. intros Hcb.
  induction xs as [|x xs IH]; intros c1 c2; simpl; [done|].
  unfold JS.bind.
  specialize (Hcb x c1 c2).
  destruct (callback1 x c1) as [[keep1|e1] c1'], (callback2 x c2) as [[keep2|e2] c2'];
    simplify_eq/=; [|congruence].
  specialize (IH c1' c2').
  destruct (Array_filter callback1 xs c1') as [[kept1|e1] c1''],
           (Array_filter callback2 xs c2') as [[kept2|e2] c2''];
    simplify_eq/=; congruence.
Qed.

(** A callback that never touches the console leaves it as it was. *)
Lemma Array_filter_console (callback : A -> JS.t bool) (xs : list A) :
  (forall x c, JS.console (callback x c) = c) ->
  forall c, JS.console (Array_filter callback xs c) = c.
Proof.
  unfold JS.console. intros Hcb.
  induction xs as [|x xs IH]; intros c; simpl; [done|].
  unfold JS.bind.
  specialize (Hcb x c).
  destruct (callback x c) as [[keep|e] c']; simplify_eq/=; [|done].
  specialize (IH c).
  by destruct (Array_filter callback xs c) as [[kept|e] c''].
Qed.

(** Whatever the callback does, a traversal that completes normally has
    only removed elements. *)
Lemma Array_filter_sublist (callback : A -> JS.t bool) (xs : list A) :
  forall c kept c',
    Array_filter callback xs c = (Normal kept, c') -> kept `sublist_of` xs.
Proof.
  induction xs as [|x xs IH]; intros c kept c'; simpl.
  - unfold JS.ret. intros [= <- _]. constructor.
  - unfold JS.bind, JS.ret.
    destruct (callback x c) as [[keep|e] c1]; [|done].
    destruct (Array_filter callback xs c1) as [[kept1|e] c2] eqn:Hrest; [|done].
    intros [= <- _]. specialize (IH _ _ _ Hrest).
    destruct keep; by constructor.
Qed.

(** Every element it kept is one the callback accepted. *)
Lemma Array_filter_accepted (callback : A -> JS.t bool) (xs : list A) :
  forall c kept c',
    Array_filter callback xs c = (Normal kept, c') ->
    forall x, x ∈ kept -> exists c1 c2, callback x c1 = (Normal true, c2).
Proof.
  induction xs as [|x xs IH]; intros c kept c'; simpl.
  - unfold JS.ret. intros [= <- _] y Hy. by apply elem_of_nil in Hy.
  - unfold JS.bind, JS.ret.
    destruct (callback x c) as [[keep|e] c1] eqn:Hx; [|done].
    destruct (Array_filter callback xs c1) as [[kept1|e] c2] eqn:Hrest; [|done].
    intros [= <- _] y Hy. specialize (IH _ _ _ Hrest).
    destruct keep; [|by apply IH].
    apply elem_of_cons in Hy as [->|Hy]; [by exists c, c1|by apply IH].
Qed.

End ArrayFilter.

(** ** The callbacks on a metric of the declared domain *)

Section Callbacks.

Variable E : DriftTestEnum.

Lemma includes_elem_of (names : list string) (name : string) (c : Console) :
  includes (Some names) name c = (Normal (bool_decide (name ∈ names)), c).
Proof.
  unfold includes, JS.ret. do 2 f_equal.
  apply eq_true_iff_eq. rewrite existsb_exists, bool_decide_eq_true.
  split.
  - intros (name' & Hin & Heq). apply String.eqb_eq in Heq. subst.
    by apply list_elem_of_In.
  - intros Hin. exists name. split; [by apply list_elem_of_In|apply String.eqb_refl].
Qed.

Lemma type_verdict (metadata : Metadata) (metric : DriftMetric) (dc : DriftCalc) :
  driftCalc metric = Some dc ->
  isNumericalSelected metadata && (type dc =? KS E)%string
  || isCategoricalSelected metadata && (type dc =? CHI2 E)%string
  = bool_decide (passes_type_filter E metadata metric).
Proof.
  intros Hdc. apply eq_true_iff_eq.
  rewrite bool_decide_eq_true, orb_true_iff, !andb_true_iff, !String.eqb_eq.
  unfold passes_type_filter, numerically_eligible, categorically_eligible.
  rewrite Hdc. simpl.
  split; intros [[Hsel Hty]|[Hsel Hty]]; [left|right|left|right];
    (split; [done|congruence]).
Qed.

Lemma selected_callback_declared (metadata : Metadata) (names : list string)
    (metric : DriftMetric) (c : Console) :
  has_driftCalc metric ->
  selected_callback E (isNumericalSelected metadata) (isCategoricalSelected metadata)
    (Some names) metric c =
  (Normal (bool_decide (featureName metric ∈ names /\ passes_type_filter E metadata metric)),
   c ++ []).
Proof.
  intros [dc Hdc]. unfold selected_callback, JS.bind, destructure_type.
  rewrite Hdc. unfold JS.ret at 1. rewrite includes_elem_of. unfold JS.ret.
  rewrite (type_verdict metadata metric dc Hdc), app_nil_r. do 2 f_equal.
  apply eq_true_iff_eq.
  by rewrite andb_true_iff, !bool_decide_eq_true.
Qed.

Lemma unselected_callback_declared (metadata : Metadata)
    (metric : DriftMetric) (c : Console) :
  has_driftCalc metric ->
  unselected_callback E (isNumericalSelected metadata) (isCategoricalSelected metadata)
    metric c =
  (Normal (bool_decide (passes_type_filter E metadata metric)),
   c ++ debug_line E metadata metric).
Proof.
  intros [dc Hdc]. unfold unselected_callback, JS.bind, destructure_type, debug_line.
  rewrite Hdc. unfold JS.ret, JS.console_debug.
  by rewrite (type_verdict metadata metric dc Hdc).
Qed.

(** A metric either callback accepts passes the type filter, declared domain
    or not. *)
Lemma selected_callback_accepted (metadata : Metadata) (names : option (list string))
    (metric : DriftMetric) (c c' : Console) :
  selected_callback E (isNumericalSelected metadata) (isCategoricalSelected metadata)
    names metric c = (Normal true, c') ->
  passes_type_filter E metadata metric.
Proof.
  unfold selected_callback, JS.bind, destructure_type, includes, JS.ret, JS.throw.
  destruct (driftCalc metric) as [dc|] eqn:Hdc; [|done].
  destruct names as [names|]; [|done].
  intros [= Hkeep _]. apply andb_true_iff in Hkeep as [_ Hkeep].
  rewrite (type_verdict metadata metric dc Hdc) in Hkeep.
  by apply bool_decide_eq_true in Hkeep.
Qed.

Lemma unselected_callback_accepted (metadata : Metadata)
    (metric : DriftMetric) (c c' : Console) :
  unselected_callback E (isNumericalSelected metadata) (isCategoricalSelected metadata)
    metric c = (Normal true, c') ->
  passes_type_filter E metadata metric.
Proof.
  unfold unselected_callback, JS.bind, destructure_type, JS.console_debug, JS.ret.
  destruct (driftCalc metric) as [dc|] eqn:Hdc; [|done].
  intros [= Hkeep _].
  rewrite (type_verdict metadata metric dc Hdc) in Hkeep.
  by apply bool_decide_eq_true in Hkeep.
Qed.

(** Neither callback reads the console: how it completes does not depend
    on what was printed before. *)
Lemma selected_callback_completion (n k : bool) (names : option (list string))
    (metric : DriftMetric) (c1 c2 : Console) :
  JS.completion (selected_callback E n k names metric c1) =
  JS.completion (selected_callback E n k names metric c2).
Proof.
  unfold selected_callback, JS.bind, destructure_type, includes.
  by destruct (driftCalc metric), names.
Qed.

Lemma unselected_callback_completion (n k : bool)
    (metric : DriftMetric) (c1 c2 : Console) :
  JS.completion (unselected_callback E n k metric c1) =
  JS.completion (unselected_callback E n k metric c2).
Proof.
  unfold unselected_callback, JS.bind, destructure_type.
  by destruct (driftCalc metric).
Qed.

(** The callback of lines 27-34 and the same callback without line 31
    complete alike. *)
Lemma unselected_callback_silent_completion (n k : bool)
    (metric : DriftMetric) (c1 c2 : Console) :
  JS.completion (unselected_callback E n k metric c1) =
  JS.completion (unselected_callback_silent E n k metric c2).
Proof.
  unfold unselected_callback, unselected_callback_silent, JS.bind, destructure_type.
  by destruct (driftCalc metric).
Qed.

Lemma unselected_callback_silent_console (n k : bool)
    (metric : DriftMetric) (c : Console) :
  JS.console (unselected_callback_silent E n k metric c) = c.
Proof.
  unfold unselected_callback_silent, JS.bind, destructure_type.
  by destruct (driftCalc metric).
Qed.

Lemma useGetFilteredFeatures_completion (data : option DriftData)
    (metadata : Metadata) (c1 c2 : Console) :
  JS.completion (useGetFilteredFeatures E data metadata c1) =
  JS.completion (useGetFilteredFeatures E data metadata c2).
Proof.
  unfold useGetFilteredFeatures. destruct metadata as [n k sf].
  destruct (not_ data); [done|].
  destruct (negb n && negb k); [done|].
  destruct (length_gt_0 sf).
  - apply Array_filter_completion. intros metric c1' c2'.
    apply selected_callback_completion.
  - apply Array_filter_completion. intros metric c1' c2'.
    apply unselected_callback_completion.
Qed.

End Callbacks.

(** ** The hook on the declared domain *)

Section Characterisation.

Variable E : DriftTestEnum.

Lemma passes_type_filter_toggles_off (metadata : Metadata) (metric : DriftMetric) :
  isNumericalSelected metadata = false ->
  isCategoricalSelected metadata = false ->
  ~ passes_type_filter E metadata metric.
Proof.
  intros Hn Hk [[Hsel _]|[Hsel _]]; congruence.
Qed.

Lemma passes_name_filter_selected (metadata : Metadata) (names : list string)
    (metric : DriftMetric) :
  selectedFeatures metadata = Some names -> names <> [] ->
  passes_name_filter metadata metric <-> featureName metric ∈ names.
Proof.
  intros Hsel Hne. unfold passes_name_filter. rewrite Hsel.
  by destruct names.
Qed.

Lemma passes_name_filter_unselected (metadata : Metadata) (metric : DriftMetric) :
  length_gt_0 (selectedFeatures metadata) = false ->
  passes_name_filter metadata metric.
Proof.
  unfold passes_name_filter, length_gt_0.
  by destruct (selectedFeatures metadata) as [[|name names]|].
Qed.

(** On the declared domain the hook completes normally, with the metrics
    that pass both filters, in the order of the input. *)
Lemma useGetFilteredFeatures_declared (data : option DriftData)
    (metadata : Metadata) (c : Console) :
  declared data ->
  returns E data metadata c
    (filter (fun metric => passes_name_filter metadata metric /\
                           passes_type_filter E metadata metric)
            (items_of data)).
Proof.
  unfold declared, returns, JS.completion, useGetFilteredFeatures.
  intros Hdecl.
  destruct metadata as [n k sf].
  destruct data as [d|]; [|reflexivity].
  change (not_ (Some d)) with false. cbv iota.
  set (metadata := Build_Metadata n k sf).
  destruct (negb n && negb k) eqn:Hgate.
  { apply andb_true_iff in Hgate as [Hn Hk].
    apply negb_true_iff in Hn, Hk. simpl. f_equal. symmetry.
    apply elem_of_nil_inv. intros metric [[_ Hty] _]%list_elem_of_filter.
    by eapply passes_type_filter_toggles_off in Hty. }
  destruct (length_gt_0 sf) eqn:Hlen.
  - destruct sf as [[|name names]|]; try done.
    rewrite (Array_filter_filter
               (fun metric => featureName metric ∈ name :: names /\
                              passes_type_filter E metadata metric)
               (fun _ => [])).
    + done.
    + eapply Forall_impl; [exact Hdecl|]. intros metric Hdc c'.
      apply (selected_callback_declared E metadata), Hdc.
  - rewrite (Array_filter_filter (passes_type_filter E metadata)
               (debug_line E metadata)).
    + simpl. f_equal.
      apply list_filter_iff. intros metric. split; [|by intros [_ ?]].
      intros Hty. split; [|done]. by apply passes_name_filter_unselected.
    + eapply Forall_impl; [exact Hdecl|]. intros metric Hdc c'.
      apply (unselected_callback_declared E metadata), Hdc.
Qed.

(** Whenever the hook completes normally, on any input, it has only removed
    elements, and every element it kept passes the type filter. *)
Lemma useGetFilteredFeatures_sublist (data : option DriftData)
    (metadata : Metadata) (c : Console) (result : list DriftMetric) :
  returns E data metadata c result -> result `sublist_of` items_of data.
Proof.
  unfold returns, JS.completion, useGetFilteredFeatures.
  destruct metadata as [n k sf].
  destruct (not_ data); [intros [= <-]; apply sublist_nil_l|].
  destruct (negb n && negb k); [intros [= <-]; apply sublist_nil_l|].
  destruct (length_gt_0 sf).
  - destruct (Array_filter _ _ c) as [r c'] eqn:Hrun. simpl. intros ->.
    by eapply Array_filter_sublist.
  - destruct (Array_filter _ _ c) as [r c'] eqn:Hrun. simpl. intros ->.
    by eapply Array_filter_sublist.
Qed.

Lemma useGetFilteredFeatures_accepted (data : option DriftData)
    (metadata : Metadata) (c : Console) (result : list DriftMetric) :
  returns E data metadata c result ->
  forall metric, metric ∈ result -> passes_type_filter E metadata metric.
Proof.
  unfold returns, JS.completion, useGetFilteredFeatures.
  destruct metadata as [n k sf].
  set (metadata := Build_Metadata n k sf).
  destruct (not_ data); [by intros [= <-] metric Hin%elem_of_nil|].
  destruct (negb n && negb k); [by intros [= <-] metric Hin%elem_of_nil|].
  destruct (length_gt_0 sf).
  - destruct (Array_filter _ _ c) as [r c'] eqn:Hrun. simpl. intros -> metric Hin.
    destruct (Array_filter_accepted _ _ _ _ _ Hrun metric Hin) as (c1 & c2 & Hcb).
    by apply (selected_callback_accepted E metadata) in Hcb.
  - destruct (Array_filter _ _ c) as [r c'] eqn:Hrun. simpl. intros -> metric Hin.
    destruct (Array_filter_accepted _ _ _ _ _ Hrun metric Hin) as (c1 & c2 & Hcb).
    by apply (unselected_callback_accepted E metadata) in Hcb.
Qed.

(** What the branch without name filter prints: one line per metric of the
    input, kept or not, in the order of the input. *)
Lemma useGetFilteredFeatures_console (d : DriftData)
    (metadata : Metadata) (c : Console) :
  declared (Some d) ->
  isNumericalSelected metadata || isCategoricalSelected metadata = true ->
  length_gt_0 (selectedFeatures metadata) = false ->
  JS.console (useGetFilteredFeatures E (Some d) metadata c) =
  c ++ (items_of (Some d) ≫= debug_line E metadata).
Proof.
  unfold declared, JS.console, useGetFilteredFeatures.
  destruct metadata as [n k sf]. intros Hdecl Hgate Hlen.
  change (not_ (Some d)) with false. cbv iota.
  set (metadata := Build_Metadata n k sf).
  simpl in Hgate, Hlen. rewrite Hlen.
  replace (negb n && negb k) with false by by destruct n, k.
  rewrite (Array_filter_filter (passes_type_filter E metadata)
             (debug_line E metadata)); [done|].
  eapply Forall_impl; [exact Hdecl|]. intros metric Hdc c'.
  apply (unselected_callback_declared E metadata), Hdc.
Qed.

(** Outside the declared domain the destructuring raises: the domain is not
    a formality. *)
Lemma useGetFilteredFeatures_undeclared :
  JS.completion (useGetFilteredFeatures E (dataset [broken]) scenario5_metadata [])
  = Throw TypeError.
Proof. reflexivity. Qed.

End Characterisation.

(** ** The properties of the specification *)

Section Properties.

Variable E : DriftTestEnum.

(** C1 — type filter.  For a present dataset of the declared domain and a
    filter state with at least one type toggle on, the hook completes with a
    sequence in which every metric is numerically or categorically eligible,
    and a metric of the input that the name filter lets through is in that
    sequence if and only if ([isNumericalSelected] is true and its
    [driftCalc.type] is [KS]) or ([isCategoricalSelected] is true and its
    [driftCalc.type] is [CHI2]). *)
Theorem type_filter_eligibility (data : option DriftData)
    (metadata : Metadata) (c : Console) :
  is_Some data ->
  isNumericalSelected metadata = true \/ isCategoricalSelected metadata = true ->
  declared data ->
  exists result,
    returns E data metadata c result /\
    (forall metric, metric ∈ result ->
       (isNumericalSelected metadata = true /\
        type <$> driftCalc metric = Some (KS E)) \/
       (isCategoricalSelected metadata = true /\
        type <$> driftCalc metric = Some (CHI2 E))) /\
    (forall metric, metric ∈ items_of data -> passes_name_filter metadata metric ->
       (metric ∈ result <->
          (isNumericalSelected metadata = true /\
           type <$> driftCalc metric = Some (KS E)) \/
          (isCategoricalSelected metadata = true /\
           type <$> driftCalc metric = Some (CHI2 E)))).
Proof.
  intros _ _ Hdecl. eexists. split; [by apply useGetFilteredFeatures_declared|].
  split.
  - by intros metric [[_ Hty] _]%list_elem_of_filter.
  - intros metric Hin Hname. rewrite list_elem_of_filter.
    split; [by intros [[_ Hty] _]|by intros Hty].
Qed.

(** C2 — name filter.  For a present dataset of the declared domain, a
    filter state with at least one type toggle on and a non-empty
    [selectedFeatures], a metric is in the result if and only if it is a
    metric of the input, its [featureName] is a member of [selectedFeatures]
    and it passes the type filter; so every element of the result has its
    [featureName] in [selectedFeatures]. *)
Theorem selected_features_intersection (data : option DriftData)
    (metadata : Metadata) (names : list string) (c : Console) :
  is_Some data ->
  isNumericalSelected metadata = true \/ isCategoricalSelected metadata = true ->
  selectedFeatures metadata = Some names ->
  names <> [] ->
  declared data ->
  exists result,
    returns E data metadata c result /\
    (forall metric,
       metric ∈ result <->
       metric ∈ items_of data /\ featureName metric ∈ names /\
       passes_type_filter E metadata metric) /\
    (forall metric, metric ∈ result -> featureName metric ∈ names).
Proof.
  intros _ _ Hsel Hne Hdecl.
  eexists. split; [by apply useGetFilteredFeatures_declared|].
  assert (forall metric,
    metric ∈ filter (fun metric => passes_name_filter metadata metric /\
                                   passes_type_filter E metadata metric)
                    (items_of data) <->
    metric ∈ items_of data /\ featureName metric ∈ names /\
    passes_type_filter E metadata metric) as Hiff.
  { intros metric.
    rewrite list_elem_of_filter, (passes_name_filter_selected metadata names) by done.
    tauto. }
  split; [exact Hiff|].
  intros metric Hin. by apply Hiff in Hin as (_ & Hname & _).
Qed.

(** C3 — no name filter.  For a present dataset of the declared domain and
    a filter state with at least one type toggle on whose [selectedFeatures]
    is empty or absent, the result is exactly the input sequence filtered by
    the type filter alone: no [featureName] enters the condition. *)
Theorem unselected_features_type_filter_alone (data : option DriftData)
    (metadata : Metadata) (c : Console) :
  is_Some data ->
  isNumericalSelected metadata = true \/ isCategoricalSelected metadata = true ->
  selectedFeatures metadata = Some [] \/ selectedFeatures metadata = None ->
  declared data ->
  returns E data metadata c (filter (passes_type_filter E metadata) (items_of data)).
Proof.
  intros _ _ Hsel Hdecl.
  pose proof (useGetFilteredFeatures_declared E data metadata c Hdecl) as Hret.
  unfold returns in *. rewrite Hret. f_equal.
  apply list_filter_iff. intros metric. split; [by intros [_ ?]|].
  intros Hty. split; [|done].
  apply passes_name_filter_unselected. unfold length_gt_0.
  by destruct Hsel as [-> | ->].
Qed.

(** C4 — type gate.  With both type toggles off the hook completes with the
    empty sequence and prints nothing, whatever the dataset (present or not,
    declared or not) and whatever [selectedFeatures]. *)
Theorem type_gate_overrides (data : option DriftData)
    (metadata : Metadata) (c : Console) :
  isNumericalSelected metadata = false ->
  isCategoricalSelected metadata = false ->
  useGetFilteredFeatures E data metadata c = (Normal [], c).
Proof.
  destruct metadata as [n k sf]. simpl. intros -> ->.
  unfold useGetFilteredFeatures. by destruct data.
Qed.

(** C5 — subsequence.  For every dataset and every filter state, a result
    of the hook is a subsequence of the input [featureMetrics]: elements are
    only removed, so the order is kept, nothing is inserted, the result is no
    longer than the input and an input without duplicates gives a result
    without duplicates.  On the declared domain there is such a result. *)
Theorem result_is_subsequence (data : option DriftData)
    (metadata : Metadata) (c : Console) :
  (forall result,
     returns E data metadata c result ->
     result `sublist_of` items_of data /\
     length result <= length (items_of data) /\
     (NoDup (items_of data) -> NoDup result)) /\
  (declared data -> exists result, returns E data metadata c result).
Proof.
  split.
  - intros result Hsub%useGetFilteredFeatures_sublist.
    split; [done|]. split; [by apply sublist_length|].
    intros Hnodup. by eapply sublist_NoDup.
  - intros Hdecl. eexists. by apply useGetFilteredFeatures_declared.
Qed.

(** C6 — degenerate inputs.  An absent dataset, a dataset without [drift],
    a [drift] without [featureMetrics] and an empty [featureMetrics] all give
    an empty working sequence and the empty result, for every filter
    state. *)
Theorem absent_or_empty_dataset (metadata : Metadata) (c : Console) :
  (items_of None = [] /\
   useGetFilteredFeatures E None metadata c = (Normal [], c)) /\
  (items_of (Some {| drift := None |}) = [] /\
   useGetFilteredFeatures E (Some {| drift := None |}) metadata c = (Normal [], c)) /\
  (items_of (Some {| drift := Some {| featureMetrics := None |} |}) = [] /\
   useGetFilteredFeatures E (Some {| drift := Some {| featureMetrics := None |} |})
     metadata c = (Normal [], c)) /\
  (items_of (Some {| drift := Some {| featureMetrics := Some [] |} |}) = [] /\
   useGetFilteredFeatures E (Some {| drift := Some {| featureMetrics := Some [] |} |})
     metadata c = (Normal [], c)).
Proof.
  destruct metadata as [[] [] [[|name names]|]]; repeat split.
Qed.

(** C7 — diagnostic.  The branch without name filter, run with any
    console, completes exactly as the same branch with the [console.debug]
    statement removed, which prints nothing: the diagnostic has no influence
    on the returned sequence (nor on whether an exception is raised), for
    every input. *)
Theorem diagnostic_does_not_affect_result (n k : bool)
    (items : list DriftMetric) (c c' : Console) :
  Array_filter (unselected_callback_silent E n k) items c' =
  (JS.completion (Array_filter (unselected_callback E n k) items c), c').
Proof.
  pose proof (Array_filter_completion
                (unselected_callback E n k) (unselected_callback_silent E n k) items
                (unselected_callback_silent_completion E n k) c c') as Hcompl.
  pose proof (Array_filter_console (unselected_callback_silent E n k) items
                (unselected_callback_silent_console E n k) c') as Hcons.
  destruct (Array_filter (unselected_callback_silent E n k) items c') as [r cr].
  unfold JS.completion, JS.console in *. simpl in *. congruence.
Qed.

(** C8 — determinism.  Two invocations on the same dataset and filter state
    complete identically, whatever the console holds when each starts; in
    particular a second invocation that starts where the first one left the
    console completes as the first one did. *)
Theorem two_runs_agree (data : option DriftData) (metadata : Metadata)
    (c c' : Console) :
  JS.completion (useGetFilteredFeatures E data metadata c) =
  JS.completion (useGetFilteredFeatures E data metadata c') /\
  JS.completion
    (useGetFilteredFeatures E data metadata
       (JS.console (useGetFilteredFeatures E data metadata c))) =
  JS.completion (useGetFilteredFeatures E data metadata c).
Proof.
  split; apply useGetFilteredFeatures_completion.
Qed.

(** C9 — totality.  On the declared domain (dataset absent or present,
    [drift] and [featureMetrics] absent or present, [selectedFeatures] absent,
    empty or not, every metric with a [driftCalc]) the hook raises nothing:
    it completes normally with some sequence. *)
Theorem total_on_declared_domain (data : option DriftData)
    (metadata : Metadata) (c : Console) :
  declared data ->
  exists result c',
    useGetFilteredFeatures E data metadata c = (Normal result, c').
Proof.
  intros Hdecl.
  pose proof (useGetFilteredFeatures_declared E data metadata c Hdecl) as Hret.
  unfold returns, JS.completion in Hret.
  destruct (useGetFilteredFeatures E data metadata c) as [r c'].
  simpl in Hret. subst r. by eexists _, _.
Qed.

(** C10 — unknown test kinds.  For every dataset and every filter state, a
    metric whose [driftCalc.type] is neither [KS] nor [CHI2] is in no result
    of the hook, whatever the toggles and [selectedFeatures]; and on the
    declared domain the hook does complete with a result, so such a metric is
    left out without an exception. *)
Theorem unknown_test_kind_excluded (data : option DriftData)
    (metadata : Metadata) (c : Console) :
  (forall result metric,
     returns E data metadata c result ->
     type <$> driftCalc metric <> Some (KS E) ->
     type <$> driftCalc metric <> Some (CHI2 E) ->
     metric ∉ result) /\
  (declared data -> exists result, returns E data metadata c result).
Proof.
  split.
  - intros result metric Hret Hks Hchi2 Hin.
    destruct (useGetFilteredFeatures_accepted E data metadata c result Hret metric Hin)
      as [[_ Hty]|[_ Hty]]; congruence.
  - intros Hdecl. eexists. by apply useGetFilteredFeatures_declared.
Qed.

End Properties.

(** ** The scenarios of §8, run *)

Example scenario1 :
  JS.completion (useGetFilteredFeatures spec_DRIFT_TEST_ENUM scenario_data scenario1_metadata [])
  = Normal [age].
Proof. reflexivity. Qed.

Example scenario2 :
  JS.completion (useGetFilteredFeatures spec_DRIFT_TEST_ENUM scenario_data scenario2_metadata [])
  = Normal [].
Proof. reflexivity. Qed.

Example scenario3 :
  JS.completion (useGetFilteredFeatures spec_DRIFT_TEST_ENUM scenario_data scenario3_metadata [])
  = Normal [city].
Proof. reflexivity. Qed.

Example scenario4 :
  JS.completion (useGetFilteredFeatures spec_DRIFT_TEST_ENUM None scenario3_metadata [])
  = Normal [].
Proof. reflexivity. Qed.

Example scenario5 :
  JS.completion (useGetFilteredFeatures spec_DRIFT_TEST_ENUM (dataset []) scenario5_metadata [])
  = Normal [].
Proof. reflexivity. Qed.

(** The diagnostic of scenario 1: both metrics are printed, the kept one and
    the dropped one. *)
Example scenario1_console :
  JS.console (useGetFilteredFeatures spec_DRIFT_TEST_ENUM scenario_data scenario1_metadata [])
  = [ {| dbg_type := "KS"; dbg_isNumerical := true; dbg_isCategorical := false |};
      {| dbg_type := "CHI2"; dbg_isNumerical := false; dbg_isCategorical := false |} ].
Proof. reflexivity. Qed.

Lemma scenario_data_declared : declared scenario_data.
Proof.
  unfold declared, has_driftCalc. simpl. repeat econstructor.
Qed.

Lemma mixed_data_declared : declared (dataset [age; income; city]).
Proof.
  unfold declared, has_driftCalc. simpl. repeat econstructor.
Qed.

(** ** The properties at the scenarios *)

(** C1 at scenario 1: numerical toggle on, no selection; [age] is kept and
    [city] is not. *)
Lemma type_filter_eligibility_witness :
  is_Some scenario_data /\
  (isNumericalSelected scenario1_metadata = true \/
   isCategoricalSelected scenario1_metadata = true) /\
  declared scenario_data /\
  exists result,
    returns spec_DRIFT_TEST_ENUM scenario_data scenario1_metadata [] result /\
    age ∈ result /\ city ∉ result.
Proof.
  assert (is_Some scenario_data) as Hdata by (by eexists).
  assert (isNumericalSelected scenario1_metadata = true \/
          isCategoricalSelected scenario1_metadata = true) as Htoggle by (by left).
  do 3 (split; [done || exact scenario_data_declared|]).
  destruct (type_filter_eligibility spec_DRIFT_TEST_ENUM scenario_data
              scenario1_metadata [] Hdata Htoggle scenario_data_declared)
    as (result & Hret & Hall & Hiff).
  exists result. split; [exact Hret|]. split.
  - apply Hiff; [apply list_elem_of_here|exact I|by left].
  - intros Hin. by destruct (Hall city Hin) as [[_ Hty]|[Hsel _]].
Defined.

(** C2 at scenario 3: both toggles on, [city] selected. *)
Lemma selected_features_intersection_witness :
  selectedFeatures scenario3_metadata = Some ["city"%string] /\
  ["city"%string] <> [] /\
  exists result,
    returns spec_DRIFT_TEST_ENUM scenario_data scenario3_metadata [] result /\
    city ∈ result /\ age ∉ result.
Proof.
  do 2 (split; [done|]).
  destruct (selected_features_intersection spec_DRIFT_TEST_ENUM scenario_data
              scenario3_metadata ["city"%string] [])
    as (result & Hret & Hiff & Hnames).
  - by eexists.
  - by left.
  - reflexivity.
  - discriminate.
  - exact scenario_data_declared.
  - exists result. split; [exact Hret|]. split.
    + apply Hiff. split; [apply list_elem_of_further, list_elem_of_here|].
      split; [apply list_elem_of_here|by right].
    + intros Hin. apply Hnames in Hin.
      apply list_elem_of_singleton in Hin. discriminate.
Defined.

(** C3 at scenario 1: the type filter alone. *)
Lemma unselected_features_type_filter_alone_witness :
  returns spec_DRIFT_TEST_ENUM scenario_data scenario1_metadata []
    (filter (passes_type_filter spec_DRIFT_TEST_ENUM scenario1_metadata)
            (items_of scenario_data)) /\
  filter (passes_type_filter spec_DRIFT_TEST_ENUM scenario1_metadata)
         (items_of scenario_data) = [age].
Proof.
  split; [|reflexivity].
  apply unselected_features_type_filter_alone.
  - by eexists.
  - by left.
  - by left.
  - exact scenario_data_declared.
Defined.

(** C4 at scenario 2: the type gate wins over the selection of [age]. *)
Lemma type_gate_overrides_witness :
  useGetFilteredFeatures spec_DRIFT_TEST_ENUM scenario_data scenario2_metadata []
  = (Normal [], []).
Proof.
  apply type_gate_overrides; reflexivity.
Defined.

(** C5 at scenario 3. *)
Lemma result_is_subsequence_witness :
  declared scenario_data /\
  exists result,
    returns spec_DRIFT_TEST_ENUM scenario_data scenario3_metadata [] result /\
    result `sublist_of` [age; city] /\
    length result <= 2 /\
    (NoDup [age; city] -> NoDup result).
Proof.
  split; [exact scenario_data_declared|].
  destruct (result_is_subsequence spec_DRIFT_TEST_ENUM scenario_data scenario3_metadata [])
    as [Hsub Htotal].
  destruct (Htotal scenario_data_declared) as [result Hret].
  exists result. split; [exact Hret|]. exact (Hsub result Hret).
Defined.

(** C9 at scenario 1. *)
Lemma total_on_declared_domain_witness :
  exists result c',
    useGetFilteredFeatures spec_DRIFT_TEST_ENUM scenario_data scenario1_metadata []
    = (Normal result, c').
Proof.
  exact (total_on_declared_domain spec_DRIFT_TEST_ENUM scenario_data scenario1_metadata []
           scenario_data_declared).
Defined.

(** C10 on a dataset with a metric of an unknown test kind, both toggles on,
    no selection: [income] is left out. *)
Lemma unknown_test_kind_excluded_witness :
  declared (dataset [age; income; city]) /\
  exists result,
    returns spec_DRIFT_TEST_ENUM (dataset [age; income; city]) scenario5_metadata [] result /\
    income ∉ result.
Proof.
  split; [exact mixed_data_declared|].
  destruct (unknown_test_kind_excluded spec_DRIFT_TEST_ENUM (dataset [age; income; city])
              scenario5_metadata [])
    as [Hout Htotal].
  destruct (Htotal mixed_data_declared) as [result Hret].
  exists result. split; [exact Hret|].
  apply (Hout result income Hret); discriminate.
Defined.

(** ** Further properties of the hook *)

(** *** When [Array_filter] raises *)

Section ArrayFilterRaises.

Context {A : Type}.



(** Filtering by a stronger predicate gives a subsequence. *)
Lemma filter_sublist_impl (P Q : A -> Prop)
    `{!forall x, Decision (P x), !forall x, Decision (Q x)} (xs : list A) :
  (forall x, P x -> Q x) -> filter P xs `sublist_of` filter Q xs.
Proof.
  intros Himpl. rewrite <- (list_filter_filter_l P Q xs Himpl).
  apply sublist_filter.
Qed.

End ArrayFilterRaises.

(** *** The callbacks: when they raise, what they print *)

Section CallbackEffects.

Variable E : DriftTestEnum.





(** The callback of lines 20-26 never prints. *)
Lemma selected_callback_console (n k : bool) (names : option (list string))
    (metric : DriftMetric) (c : Console) :
  JS.console (selected_callback E n k names metric c) = c.
Proof.
  unfold selected_callback, JS.bind, destructure_type, includes.
  by destruct (driftCalc metric), names.
Qed.

(** On the declared domain a result is the filter of the input. *)
Lemma returns_filter (data : option DriftData) (metadata : Metadata)
    (c : Console) (result : list DriftMetric) :
  declared data ->
  returns E data metadata c result ->
  result = filter (fun metric => passes_name_filter metadata metric /\
                                 passes_type_filter E metadata metric)
                  (items_of data).
Proof.
  intros Hdecl Hret.
  pose proof (useGetFilteredFeatures_declared E data metadata c Hdecl) as Hspec.
  unfold returns in *. congruence.
Qed.

(** A declared metric gets exactly one diagnostic line. *)
Lemma debug_line_length (metadata : Metadata) (metrics : list DriftMetric) :
  Forall has_driftCalc metrics ->
  length (metrics ≫= debug_line E metadata) = length metrics.
Proof.
  induction 1 as [|metric metrics [dc Hdc] _ IH]; [done|].
  rewrite bind_cons, length_app, IH. unfold debug_line. by rewrite Hdc.
Qed.

End CallbackEffects.

(** *** Errors, console output and composition *)

Section FurtherProperties.

Variable E : DriftTestEnum.


(** X2 — silence.  The hook prints nothing when the data are absent, when
    both type toggles are off, or when [selectedFeatures] is a non-empty
    array: the diagnostic belongs to the branch without selection only.  This
    holds for every input, also when the hook raises. *)
Theorem prints_only_without_selection (data : option DriftData)
    (metadata : Metadata) (c : Console) :
  data = None \/
  (isNumericalSelected metadata = false /\ isCategoricalSelected metadata = false) \/
  (exists name names, selectedFeatures metadata = Some (name :: names)) ->
  JS.console (useGetFilteredFeatures E data metadata c) = c.
Proof.
  destruct metadata as [n k sf]. unfold useGetFilteredFeatures. simpl.
  intros [-> | [[-> ->] | (name & names & ->)]].
  - done.
  - by destruct data.
  - destruct (not_ data); [done|]. destruct (negb n && negb k); [done|].
    simpl. apply Array_filter_console. intros metric c'.
    apply selected_callback_console.
Qed.

(** X3 — one diagnostic line per metric.  With data of the declared domain
    present, a type toggle on and [selectedFeatures] empty or absent, the hook
    appends to the console one line for every metric of the input, kept or
    dropped, in input order: the console grows by the length of the input,
    not of the result. *)
Theorem diagnostic_line_per_metric (d : DriftData)
    (metadata : Metadata) (c : Console) :
  declared (Some d) ->
  isNumericalSelected metadata = true \/ isCategoricalSelected metadata = true ->
  selectedFeatures metadata = Some [] \/ selectedFeatures metadata = None ->
  JS.console (useGetFilteredFeatures E (Some d) metadata c) =
    c ++ (items_of (Some d) ≫= debug_line E metadata) /\
  length (JS.console (useGetFilteredFeatures E (Some d) metadata c)) =
    length c + length (items_of (Some d)).
Proof.
  intros Hdecl Htoggle Hsel.
  assert (JS.console (useGetFilteredFeatures E (Some d) metadata c) =
          c ++ (items_of (Some d) ≫= debug_line E metadata)) as Hconsole.
  { apply useGetFilteredFeatures_console; [done| |].
    - destruct Htoggle as [-> | ->]; [done|apply orb_true_r].
    - by destruct Hsel as [-> | ->]. }
  split; [exact Hconsole|].
  by rewrite Hconsole, length_app, debug_line_length.
Qed.

(** X4 — a selection only narrows.  On the declared domain the result under
    any [selectedFeatures] is a subsequence of the result under the same
    toggles with no selection. *)
Theorem selection_only_narrows (data : option DriftData)
    (metadata : Metadata) (c c' : Console) :
  declared data ->
  exists result unrestricted,
    returns E data metadata c result /\
    returns E data
      {| isNumericalSelected := isNumericalSelected metadata;
         isCategoricalSelected := isCategoricalSelected metadata;
         selectedFeatures := None |} c' unrestricted /\
    result `sublist_of` unrestricted.
Proof.
  intros Hdecl. eexists _, _.
  split; [by apply useGetFilteredFeatures_declared|].
  split; [by apply useGetFilteredFeatures_declared|].
  apply filter_sublist_impl. intros metric [_ Hty]. by split.
Qed.

(** X5 — a toggle only widens.  On the declared domain the result under any
    toggles is a subsequence of the result under the same [selectedFeatures]
    with both toggles on. *)
Theorem toggles_only_widen (data : option DriftData)
    (metadata : Metadata) (c c' : Console) :
  declared data ->
  exists result widest,
    returns E data metadata c result /\
    returns E data
      {| isNumericalSelected := true;
         isCategoricalSelected := true;
         selectedFeatures := selectedFeatures metadata |} c' widest /\
    result `sublist_of` widest.
Proof.
  intros Hdecl. eexists _, _.
  split; [by apply useGetFilteredFeatures_declared|].
  split; [by apply useGetFilteredFeatures_declared|].
  apply filter_sublist_impl. intros metric [Hname Hty]. split; [done|].
  destruct Hty as [[_ Hty]|[_ Hty]]; [by left|by right].
Qed.

(** X6 — filtering twice.  On the declared domain, the hook run on a dataset
    made of its own result, under the same filter state, returns that result
    unchanged. *)
Theorem filtering_is_idempotent (data : option DriftData)
    (metadata : Metadata) (c c' : Console) (result : list DriftMetric) :
  declared data ->
  returns E data metadata c result ->
  returns E (dataset result) metadata c' result.
Proof.
  intros Hdecl Hret.
  pose proof (returns_filter E data metadata c result Hdecl Hret) as Hres.
  assert (declared (dataset result)) as Hdecl'.
  { unfold declared in *. simpl. subst result.
    apply Forall_forall. intros metric [_ Hin]%list_elem_of_filter.
    by eapply Forall_forall in Hdecl. }
  pose proof (useGetFilteredFeatures_declared E (dataset result) metadata c' Hdecl')
    as Hagain.
  unfold returns in *. rewrite Hagain. f_equal.
  change (items_of (dataset result)) with result. rewrite Hres.
  by apply list_filter_filter_r.
Qed.

End FurtherProperties.

Section TogglesAndSelections.

Variable E : DriftTestEnum.

(** X7 — the two type classes partition the view.  When the two test kinds
    [KS] and [CHI2] are different, on the declared domain, the result with
    both toggles on is made of the result with the numerical toggle alone and
    the result with the categorical toggle alone: the two are disjoint, and
    together they are a rearrangement of the both-on result. *)
Theorem toggles_partition (data : option DriftData)
    (names : option (list string)) (c : Console) :
  KS E <> CHI2 E ->
  declared data ->
  exists both numerical categorical,
    returns E data
      {| isNumericalSelected := true; isCategoricalSelected := true;
         selectedFeatures := names |} c both /\
    returns E data
      {| isNumericalSelected := true; isCategoricalSelected := false;
         selectedFeatures := names |} c numerical /\
    returns E data
      {| isNumericalSelected := false; isCategoricalSelected := true;
         selectedFeatures := names |} c categorical /\
    numerical ++ categorical ≡ₚ both /\
    (forall metric, metric ∈ numerical -> metric ∉ categorical).
Proof.
  intros Hkinds Hdecl. eexists _, _, _.
  do 3 (split; [by apply useGetFilteredFeatures_declared|]).
  split.
  - match goal with
    | |- ?numerical ++ ?categorical ≡ₚ ?both =>
        assert (numerical =
                filter (fun metric => type <$> driftCalc metric = Some (KS E)) both)
          as ->;
        [|assert (categorical =
                  filter (fun metric => ~ type <$> driftCalc metric = Some (KS E)) both)
            as ->;
          [|apply filter_app_complement]]
    end.
    + rewrite list_filter_filter. apply list_filter_iff.
      intros metric. unfold passes_name_filter, passes_type_filter,
        numerically_eligible, categorically_eligible. simpl.
      split.
      * intros [Hname [[_ Hty]|[Hoff _]]]; [|done]. by repeat split; try left.
      * intros [Hty [Hname _]]. split; [done|]. by left.
    + rewrite list_filter_filter. apply list_filter_iff.
      intros metric. unfold passes_name_filter, passes_type_filter,
        numerically_eligible, categorically_eligible. simpl.
      split.
      * intros [Hname [[Hoff _]|[_ Hty]]]; [done|].
        split; [congruence|]. split; [done|]. by right.
      * intros [Hty [Hname [[_ Hks]|[_ Hchi2]]]]; [done|]. split; [done|]. by right.
  - intros metric [[_ Hnum] _]%list_elem_of_filter [[_ Hcat] _]%list_elem_of_filter.
    destruct Hnum as [[_ Hks]|[Hoff _]]; [|done].
    destruct Hcat as [[Hoff _]|[_ Hchi2]]; [done|]. congruence.
Qed.

(** X8 — the selection is a set.  Two non-empty [selectedFeatures] arrays
    with the same members, in whatever order and with whatever repetitions,
    give the same result on the declared domain. *)
Theorem selection_is_a_set (data : option DriftData) (n k : bool)
    (names1 names2 : list string) (c : Console) :
  names1 <> [] -> names2 <> [] ->
  (forall name, name ∈ names1 <-> name ∈ names2) ->
  declared data ->
  exists result,
    returns E data
      {| isNumericalSelected := n; isCategoricalSelected := k;
         selectedFeatures := Some names1 |} c result /\
    returns E data
      {| isNumericalSelected := n; isCategoricalSelected := k;
         selectedFeatures := Some names2 |} c result.
Proof.
  intros Hne1 Hne2 Hsame Hdecl. eexists.
  split; [by apply useGetFilteredFeatures_declared|].
  pose proof (useGetFilteredFeatures_declared E data
                (Build_Metadata n k (Some names2)) c Hdecl) as Hret2.
  unfold returns in *. rewrite Hret2. f_equal.
  apply list_filter_iff. intros metric.
  rewrite (passes_name_filter_selected (Build_Metadata n k (Some names1)) names1),
    (passes_name_filter_selected (Build_Metadata n k (Some names2)) names2) by done.
  by rewrite Hsame.
Qed.

(** X9 — metrics are judged one by one.  On declared metrics, the result for
    two sequences of metrics put end to end is the result for the first
    followed by the result for the second. *)
Theorem result_of_concatenation (xs ys : list DriftMetric)
    (metadata : Metadata) (c : Console) :
  Forall has_driftCalc xs -> Forall has_driftCalc ys ->
  exists rx ry,
    returns E (dataset xs) metadata c rx /\
    returns E (dataset ys) metadata c ry /\
    returns E (dataset (xs ++ ys)) metadata c (rx ++ ry).
Proof.
  intros Hxs Hys. eexists _, _.
  split; [by apply useGetFilteredFeatures_declared|].
  split; [by apply useGetFilteredFeatures_declared|].
  pose proof (useGetFilteredFeatures_declared E (dataset (xs ++ ys)) metadata c) as Hret.
  unfold returns in *. rewrite Hret; [|by apply Forall_app].
  f_equal. apply filter_app.
Qed.

(** X10 — a selection that names no feature of the dataset.  On the declared
    domain, a non-empty [selectedFeatures] none of whose names is the
    [featureName] of an input metric gives the empty result, whereas the empty
    selection restricts nothing. *)
Theorem foreign_selection_gives_nothing (data : option DriftData)
    (metadata : Metadata) (names : list string) (c : Console) :
  selectedFeatures metadata = Some names ->
  names <> [] ->
  (forall metric, metric ∈ items_of data -> featureName metric ∉ names) ->
  declared data ->
  returns E data metadata c [].
Proof.
  intros Hsel Hne Hforeign Hdecl.
  pose proof (useGetFilteredFeatures_declared E data metadata c Hdecl) as Hret.
  unfold returns in *. rewrite Hret. f_equal.
  apply elem_of_nil_inv. intros metric [[Hname _] Hin]%list_elem_of_filter.
  apply (passes_name_filter_selected metadata names) in Hname; [|done..].
  by apply (Hforeign metric).
Qed.

End TogglesAndSelections.

(** *** The further properties at concrete inputs *)


(** X2 at scenario 3, started on a console that already holds a line. *)
Lemma prints_only_without_selection_witness :
  JS.console
    (useGetFilteredFeatures spec_DRIFT_TEST_ENUM scenario_data scenario3_metadata
       [ {| dbg_type := "KS"; dbg_isNumerical := true; dbg_isCategorical := false |} ])
  = [ {| dbg_type := "KS"; dbg_isNumerical := true; dbg_isCategorical := false |} ].
Proof.
  apply prints_only_without_selection.
  right. right. by eexists _, _.
Defined.

(** X3 at scenario 1: two metrics, one kept, two lines. *)
Lemma diagnostic_line_per_metric_witness :
  length
    (JS.console
       (useGetFilteredFeatures spec_DRIFT_TEST_ENUM scenario_data scenario1_metadata []))
  = 2.
Proof.
  refine (proj2 (diagnostic_line_per_metric spec_DRIFT_TEST_ENUM
                   {| drift := Some {| featureMetrics := Some [age; city] |} |}
                   scenario1_metadata [] scenario_data_declared _ _)).
  - by left.
  - by left.
Defined.

(** X4 at scenario 3. *)
Lemma selection_only_narrows_witness :
  exists result unrestricted,
    returns spec_DRIFT_TEST_ENUM scenario_data scenario3_metadata [] result /\
    returns spec_DRIFT_TEST_ENUM scenario_data
      {| isNumericalSelected := true; isCategoricalSelected := true;
         selectedFeatures := None |} [] unrestricted /\
    result `sublist_of` unrestricted.
Proof.
  exact (selection_only_narrows spec_DRIFT_TEST_ENUM scenario_data scenario3_metadata
           [] [] scenario_data_declared).
Defined.

(** X5 at scenario 1. *)
Lemma toggles_only_widen_witness :
  exists result widest,
    returns spec_DRIFT_TEST_ENUM scenario_data scenario1_metadata [] result /\
    returns spec_DRIFT_TEST_ENUM scenario_data scenario5_metadata [] widest /\
    result `sublist_of` widest.
Proof.
  exact (toggles_only_widen spec_DRIFT_TEST_ENUM scenario_data scenario1_metadata
           [] [] scenario_data_declared).
Defined.

(** X6 at scenario 3: [[city]] filtered again is [[city]]. *)
Lemma filtering_is_idempotent_witness :
  returns spec_DRIFT_TEST_ENUM (dataset [city]) scenario3_metadata [] [city].
Proof.
  apply (filtering_is_idempotent spec_DRIFT_TEST_ENUM scenario_data scenario3_metadata
           [] [] [city] scenario_data_declared).
  reflexivity.
Defined.

(** X7 at the scenario dataset, without selection. *)
Lemma toggles_partition_witness :
  KS spec_DRIFT_TEST_ENUM <> CHI2 spec_DRIFT_TEST_ENUM /\
  exists both numerical categorical,
    returns spec_DRIFT_TEST_ENUM scenario_data scenario5_metadata [] both /\
    returns spec_DRIFT_TEST_ENUM scenario_data scenario1_metadata [] numerical /\
    returns spec_DRIFT_TEST_ENUM scenario_data
      {| isNumericalSelected := false; isCategoricalSelected := true;
         selectedFeatures := Some [] |} [] categorical /\
    numerical ++ categorical ≡ₚ both /\
    (forall metric, metric ∈ numerical -> metric ∉ categorical).
Proof.
  assert (KS spec_DRIFT_TEST_ENUM <> CHI2 spec_DRIFT_TEST_ENUM) as Hkinds
    by discriminate.
  split; [exact Hkinds|].
  exact (toggles_partition spec_DRIFT_TEST_ENUM scenario_data (Some []) []
           Hkinds scenario_data_declared).
Defined.

(** X8: the same two names, reordered and repeated. *)
Lemma selection_is_a_set_witness :
  exists result,
    returns spec_DRIFT_TEST_ENUM (dataset [age; income; city])
      {| isNumericalSelected := true; isCategoricalSelected := true;
         selectedFeatures := Some ["city"; "age"]%string |} [] result /\
    returns spec_DRIFT_TEST_ENUM (dataset [age; income; city])
      {| isNumericalSelected := true; isCategoricalSelected := true;
         selectedFeatures := Some ["age"; "city"; "age"]%string |} [] result.
Proof.
  apply selection_is_a_set.
  - discriminate.
  - discriminate.
  - intros name. rewrite !elem_of_cons, !elem_of_nil. tauto.
  - exact mixed_data_declared.
Defined.

(** X9 on the two scenario metrics. *)
Lemma result_of_concatenation_witness :
  exists rx ry,
    returns spec_DRIFT_TEST_ENUM (dataset [age]) scenario1_metadata [] rx /\
    returns spec_DRIFT_TEST_ENUM (dataset [city]) scenario1_metadata [] ry /\
    returns spec_DRIFT_TEST_ENUM (dataset ([age] ++ [city])) scenario1_metadata []
      (rx ++ ry).
Proof.
  apply result_of_concatenation; unfold has_driftCalc; repeat econstructor.
Defined.

(** X10: selecting [income] on a dataset that has no such feature. *)
Lemma foreign_selection_gives_nothing_witness :
  returns spec_DRIFT_TEST_ENUM scenario_data
    {| isNumericalSelected := true; isCategoricalSelected := true;
       selectedFeatures := Some ["income"%string] |} [] [].
Proof.
  apply (foreign_selection_gives_nothing spec_DRIFT_TEST_ENUM scenario_data _
           ["income"%string]).
  - reflexivity.
  - discriminate.
  - intros metric Hin Hname. apply list_elem_of_singleton in Hname.
    change (items_of scenario_data) with [age; city] in Hin.
    rewrite !elem_of_cons, elem_of_nil in Hin.
    destruct Hin as [-> | [-> | []]]; discriminate.
  - exact scenario_data_declared.
Defined.
